(** * RunCloud MCP server (src/index-basic.js): dispatch, request mapping
      and error translation

    The development embeds the tool catalogue served by the
    ListToolsRequestSchema handler, the thirteen request handlers, the
    CallToolRequestSchema dispatcher with its catch block, and the
    module-level start-up code.  The remote API and the stdio transport
    are the only things left abstract: the first is an oracle from
    outbound calls to HTTP replies, the second a flag telling whether
    [connect] resolved. *)

From Stdlib Require Import ZArith Ascii String.
From stdpp Require Import base option list strings gmap pretty.

Local Set Warnings "-register-all".
Local Open Scope Z_scope.
Local Open Scope string_scope.

(** ** JavaScript values *)

(** The numbers [JSON.parse] can yield: zero (the program cannot tell the
    two zeros apart), a finite non-zero double, or an infinity (a
    literal too large for a double).  A finite double is given by the
    decimal that Number::toString prints for it, the shortest one that
    reads back as the same double: [± significand × 10 ^ exponent].
    Every double is such a value, and [number_to_string] below is the
    layout step of Number::toString on these digits, with trailing zeros
    of the significand moved into the exponent. *)
Inductive number : Type :=
  | Zero
  | Finite (negative : bool) (significand : positive) (exponent : Z)
  | Infinite (negative : bool).

(** The number an integer literal denotes. *)
Definition int (n : Z) : number :=
  match n with
  | Z0 => Zero
  | Zpos p => Finite false p 0
  | Zneg p => Finite true p 0
  end.

(** JSON values as [JSON.parse] produces them; the pairs of a [JObj]
    are the object's own properties in enumeration order. *)
Inductive json : Type :=
  | JNull
  | JBool (b : bool)
  | JNum (x : number)
  | JStr (s : string)
  | JArr (xs : list json)
  | JObj (kvs : list (string * json)).

(** A JavaScript value read from a property: [None] is [undefined]. *)
Definition jsval : Type := option json.

(** An object literal built by a handler ([params], [data], a request
    body); a key may hold [undefined]. *)
Definition jsobj : Type := list (string * jsval).

(** ToBoolean, as used by [if (x)] and [x || y]. *)
Definition truthy (v : jsval) : bool :=
  match v with
  | None => false
  | Some JNull => false
  | Some (JBool b) => b
  | Some (JNum Zero) => false
  | Some (JNum _) => true
  | Some (JStr s) => negb (s =? "")%string
  | Some (JArr _) => true
  | Some (JObj _) => true
  end.

Fixpoint join (sep : string) (parts : list string) : string :=
  match parts with
  | [] => ""
  | [p] => p
  | p :: rest => p +:+ sep +:+ join sep rest
  end.

(** Own-property lookup in an object literal: first binding of the key. *)
Fixpoint obj_get {A : Type} (k : string) (o : list (string * A)) : option A :=
  match o with
  | [] => None
  | (k', v) :: rest => if (k' =? k)%string then Some v else obj_get k rest
  end.

(** [o.k = v]: overwrite in place, or append a new own property. *)
Fixpoint obj_set {A : Type} (k : string) (v : A) (o : list (string * A))
  : list (string * A) :=
  match o with
  | [] => [(k, v)]
  | (k', v') :: rest =>
      if (k' =? k)%string then (k, v) :: rest else (k', v') :: obj_set k v rest
  end.

Definition has_key {A : Type} (k : string) (o : list (string * A)) : bool :=
  bool_decide (k ∈ map fst o).

(** *** Number::toString *)

Fixpoint zeros (n : nat) : string :=
  match n with
  | O => ""
  | S n => String "0" (zeros n)
  end.

Fixpoint str_take (n : nat) (s : string) : string :=
  match n, s with
  | S n, String c rest => String c (str_take n rest)
  | _, _ => ""
  end.

Fixpoint str_drop (n : nat) (s : string) : string :=
  match n, s with
  | S n, String _ rest => str_drop n rest
  | _, _ => s
  end.

(** A digit string without its trailing zeros, and how many there were. *)
Fixpoint strip_zeros (s : string) : string * nat :=
  match s with
  | EmptyString => ("", O)
  | String c rest =>
      let (rest', z) := strip_zeros rest in
      if (rest' =? "")%string && Ascii.eqb c "0"
      then ("", S z)
      else (String c rest', z)
  end.

(** The digits [s] (no trailing zero, [k] of them) and the position [n]
    of the decimal point, laid out as Number::toString does: an
    integer up to 21 digits, a decimal fraction, a fraction below one
    with up to five leading zeros, or the exponent form. *)
Definition layout (ds : string) (n : Z) : string :=
  let k := Z.of_nat (String.length ds) in
  if ((k <=? n) && (n <=? 21))%Z then
    ds +:+ zeros (Z.to_nat (n - k))
  else if ((0 <? n) && (n <=? 21))%Z then
    str_take (Z.to_nat n) ds +:+ "." +:+ str_drop (Z.to_nat n) ds
  else if ((-6 <? n) && (n <=? 0))%Z then
    "0." +:+ zeros (Z.to_nat (- n)) +:+ ds
  else
    str_take 1 ds +:+ (if (k =? 1)%Z then "" else "." +:+ str_drop 1 ds) +:+
    "e" +:+ (if (0 <=? n - 1)%Z then "+" else "-") +:+ pretty (Z.abs (n - 1)).

Definition number_to_string (x : number) : string :=
  match x with
  | Zero => "0"
  | Finite negative significand exponent =>
      let (ds, z) := strip_zeros (pretty (Npos significand)) in
      (if negative then "-" else "") +:+
      layout ds (exponent + Z.of_nat z + Z.of_nat (String.length ds))
  | Infinite negative => if negative then "-Infinity" else "Infinity"
  end.

(** *** ToString *)

(** ToString on a parsed JSON value, as a template literal applies it;
    [None] stands for the TypeError of a value that cannot be converted.
    An array is its elements joined by commas, [null] elements rendered
    empty.  A plain object is the fixed tag of Object.prototype.toString,
    unless it has an own [toString] property: that one is not callable,
    nor does [valueOf] then give a primitive, and the conversion throws. *)
Fixpoint json_to_string (j : json) : option string :=
  match j with
  | JNull => Some "null"
  | JBool true => Some "true"
  | JBool false => Some "false"
  | JNum x => Some (number_to_string x)
  | JStr s => Some s
  | JArr xs =>
      let fix elements (l : list json) : option (list string) :=
        match l with
        | [] => Some []
        | x :: rest =>
            match (match x with JNull => Some "" | _ => json_to_string x end),
                  elements rest with
            | Some s, Some ss => Some (s :: ss)
            | _, _ => None
            end
        end in
      match elements xs with
      | Some parts => Some (join "," parts)
      | None => None
      end
  | JObj kvs =>
      match obj_get "toString" kvs with
      | Some _ => None
      | None => Some "[object Object]"
      end
  end.

Definition js_to_string (v : jsval) : option string :=
  match v with
  | None => Some "undefined"
  | Some j => json_to_string j
  end.

(** ** JSON.stringify(value, null, 2) *)

Definition dquote : string := String (ascii_of_nat 34) "".
Definition newline : string := String (ascii_of_nat 10) "".
Definition backslash : string := String (ascii_of_nat 92) "".

Definition hex_digit (n : nat) : ascii :=
  ascii_of_nat (if (n <? 10)%nat then 48 + n else 87 + n)%nat.

(** QuoteJSONString on one code unit. *)
Definition escape_char (c : ascii) : string :=
  let n := nat_of_ascii c in
  if (n =? 34)%nat then backslash +:+ dquote
  else if (n =? 92)%nat then backslash +:+ backslash
  else if (n =? 8)%nat then backslash +:+ "b"
  else if (n =? 12)%nat then backslash +:+ "f"
  else if (n =? 10)%nat then backslash +:+ "n"
  else if (n =? 13)%nat then backslash +:+ "r"
  else if (n =? 9)%nat then backslash +:+ "t"
  else if (n <? 32)%nat then
    backslash +:+ "u00" +:+
    String (hex_digit (n / 16)) (String (hex_digit (n mod 16)) "")
  else String c "".

Fixpoint escape (s : string) : string :=
  match s with
  | EmptyString => ""
  | String c rest => escape_char c +:+ escape rest
  end.

Definition quote (s : string) : string := dquote +:+ escape s +:+ dquote.

(** A number in JSON text: a finite one as ToString gives it, an
    infinity as [null]. *)
Definition number_json (x : number) : string :=
  match x with
  | Infinite _ => "null"
  | _ => number_to_string x
  end.

(** SerializeJSONProperty with a non-empty gap: [indent] is the current
    indentation, [gap] the unit added per nesting level. *)
Fixpoint stringify_at (gap indent : string) (j : json) : string :=
  match j with
  | JNull => "null"
  | JBool true => "true"
  | JBool false => "false"
  | JNum x => number_json x
  | JStr s => quote s
  | JArr [] => "[]"
  | JArr xs =>
      let inner := indent +:+ gap in
      "[" +:+ newline +:+ inner +:+
      join ("," +:+ newline +:+ inner) (map (stringify_at gap inner) xs) +:+
      newline +:+ indent +:+ "]"
  | JObj [] => "{}"
  | JObj kvs =>
      let inner := indent +:+ gap in
      "{" +:+ newline +:+ inner +:+
      join ("," +:+ newline +:+ inner)
           (map (fun kv => quote (fst kv) +:+ ": " +:+
                           stringify_at gap inner (snd kv)) kvs) +:+
      newline +:+ indent +:+ "}"
  end.

(** [JSON.stringify(data, null, 2)]. *)
Definition JSON_stringify (data : json) : string := stringify_at "  " "" data.
(** ** Errors, outbound calls and the remote API *)

(** The two members of the SDK's [ErrorCode] that the server uses. *)
Inductive ErrorCode : Type :=
  | MethodNotFound
  | InternalError.

(** [error.response] of a rejected axios call. *)
Record Response : Type := mkResponse {
  status : Z;
  data : json
}.

(** Values thrown inside the request handler: an [McpError] built by the
    server, the rejection of an axios call (with [response] when the
    remote answered, without it when the call did not complete), or the
    [TypeError] of reading a property of [undefined] or [null] or of
    converting an object that cannot be converted to a string.  An
    [McpError] carries the two arguments of its constructor. *)
Inductive js_error : Type :=
  | McpError (code : ErrorCode) (message : string)
  | AxiosError (message : string) (response : option Response)
  | TypeError (message : string).

Inductive Method : Type := GET | POST | PATCH | PUT | DELETE.

(** One call on the axios instance: [api.get(url, { params })],
    [api.post(url, data)], [api.patch(url, data)], [api.put(url)]. *)
Record OutboundCall : Type := mkCall {
  method : Method;
  path : string;
  query : option jsobj;
  body : option jsobj
}.

(** What the remote end does with a call. *)
Inductive http_reply : Type :=
  | Reply (st : Z) (payload : json)
  | NoReply (reason : string).

Definition remote_api : Type := OutboundCall -> http_reply.

Inductive result (A : Type) : Type :=
  | Return (a : A)
  | Throw (e : js_error).
Arguments Return {A} a.
Arguments Throw {A} e.

(** axios settles a reply with its default [validateStatus]: a status in
    [200, 300) resolves, any other rejects with the response attached. *)
Definition settle (r : http_reply) : result Response :=
  match r with
  | Reply st payload =>
      if ((200 <=? st) && (st <? 300))%Z
      then Return (mkResponse st payload)
      else Throw (AxiosError ("Request failed with status code " +:+ pretty st)
                             (Some (mkResponse st payload)))
  | NoReply reason => Throw (AxiosError reason None)
  end.

(** ** The handler monad: remote oracle, log of calls made, exceptions *)

Definition M (A : Type) : Type :=
  remote_api -> list OutboundCall -> list OutboundCall * result A.

Definition ret {A : Type} (a : A) : M A := fun _ log => (log, Return a).

Definition throw {A : Type} (e : js_error) : M A := fun _ log => (log, Throw e).

Definition bind {A B : Type} (m : M A) (k : A -> M B) : M B :=
  fun remote log =>
    match m remote log with
    | (log', Return a) => k a remote log'
    | (log', Throw e) => (log', Throw e)
    end.

Definition try_catch {A : Type} (m : M A) (handler : js_error -> M A) : M A :=
  fun remote log =>
    match m remote log with
    | (log', Return a) => (log', Return a)
    | (log', Throw e) => handler e remote log'
    end.

(** [await api.<verb>(...)]: the call is logged, then settled. *)
Definition request (c : OutboundCall) : M Response :=
  fun remote log => ((log ++ [c])%list, settle (remote c)).

Definition run {A : Type} (m : M A) (remote : remote_api)
  : list OutboundCall * result A := m remote [].

Declare Scope js_scope.
Delimit Scope js_scope with js.
Notation "'let!' x ':=' m 'in' k" := (bind m (fun x => k))
  (at level 10, x name, m at level 100, k at level 200) : js_scope.
Local Open Scope js_scope.

(** [request.params.arguments]: absent, or an object of JSON values. *)
Definition arguments : Type := option (gmap string json).

(** [args.k]. *)
Definition prop (args : arguments) (k : string) : M jsval :=
  match args with
  | None =>
      throw (TypeError ("Cannot read properties of undefined (reading '"
                        +:+ k +:+ "')"))
  | Some o => ret (o !! k)
  end.

(** [data.k] on a parsed JSON value. *)
Definition member (d : json) (k : string) : M jsval :=
  match d with
  | JNull =>
      throw (TypeError ("Cannot read properties of null (reading '"
                        +:+ k +:+ "')"))
  | JObj kvs => ret (obj_get k kvs)
  | _ => ret None
  end.

(** [`${v}`]: ToString, or its TypeError. *)
Definition to_string (v : jsval) : M string :=
  match js_to_string v with
  | Some s => ret s
  | None => throw (TypeError "Cannot convert object to primitive value")
  end.

(** The success envelope. *)
Record ContentBlock : Type := mkBlock {
  type : string;
  text : string
}.

Record Envelope : Type := mkEnvelope {
  content : list ContentBlock
}.

(** [{ content: [{ type: 'text', text: JSON.stringify(response.data, null, 2) }] }] *)
Definition text_result (response : Response) : Envelope :=
  mkEnvelope [mkBlock "text" (JSON_stringify (data response))].

(** ** The request handlers *)

Definition listServers (args : arguments) : M Envelope :=
  let params : jsobj := [] in
  let! search := prop args "search" in
  let params := if truthy search then obj_set "search" search params else params in
  let! page := prop args "page" in
  let params := if truthy page then obj_set "page" page params else params in
  let! response := request (mkCall GET "/servers" (Some params) None) in
  ret (text_result response).

Definition getServer (args : arguments) : M Envelope :=
  let! serverId := prop args "serverId" in
  let! server := to_string serverId in
  let! response := request (mkCall GET ("/servers/" +:+ server) None None) in
  ret (text_result response).

Definition getServerStats (args : arguments) : M Envelope :=
  let! serverId := prop args "serverId" in
  let! server := to_string serverId in
  let! response :=
    request (mkCall GET ("/servers/" +:+ server +:+ "/stats") None None) in
  ret (text_result response).

Definition listWebapps (args : arguments) : M Envelope :=
  let params : jsobj := [] in
  let! search := prop args "search" in
  let params := if truthy search then obj_set "search" search params else params in
  let! page := prop args "page" in
  let params := if truthy page then obj_set "page" page params else params in
  let! serverId := prop args "serverId" in
  let! server := to_string serverId in
  let! response :=
    request (mkCall GET ("/servers/" +:+ server +:+ "/webapps")
                    (Some params) None) in
  ret (text_result response).

Definition getWebapp (args : arguments) : M Envelope :=
  let! serverId := prop args "serverId" in
  let! server := to_string serverId in
  let! webappId := prop args "webappId" in
  let! webapp := to_string webappId in
  let! response :=
    request (mkCall GET ("/servers/" +:+ server +:+ "/webapps/" +:+ webapp)
                    None None) in
  ret (text_result response).

Definition createWebapp (args : arguments) : M Envelope :=
  let! serverId := prop args "serverId" in
  let! server := to_string serverId in
  let! name := prop args "name" in
  let! domainName := prop args "domainName" in
  let! user := prop args "user" in
  let! phpVersion := prop args "phpVersion" in
  let! stack := prop args "stack" in
  let! stackMode := prop args "stackMode" in
  let! response :=
    request (mkCall POST ("/servers/" +:+ server +:+ "/webapps/custom") None
               (Some [("name", name); ("domainName", domainName);
                      ("user", user); ("phpVersion", phpVersion);
                      ("stack", stack); ("stackMode", stackMode)])) in
  ret (text_result response).

Definition listDatabases (args : arguments) : M Envelope :=
  let params : jsobj := [] in
  let! search := prop args "search" in
  let params := if truthy search then obj_set "search" search params else params in
  let! page := prop args "page" in
  let params := if truthy page then obj_set "page" page params else params in
  let! serverId := prop args "serverId" in
  let! server := to_string serverId in
  let! response :=
    request (mkCall GET ("/servers/" +:+ server +:+ "/databases")
                    (Some params) None) in
  ret (text_result response).

Definition createDatabase (args : arguments) : M Envelope :=
  let! name := prop args "name" in
  let data : jsobj := [("name", name)] in
  let! collation := prop args "collation" in
  let data :=
    if truthy collation then obj_set "collation" collation data else data in
  let! serverId := prop args "serverId" in
  let! server := to_string serverId in
  let! response :=
    request (mkCall POST ("/servers/" +:+ server +:+ "/databases")
                    None (Some data)) in
  ret (text_result response).

Definition listDatabaseUsers (args : arguments) : M Envelope :=
  let params : jsobj := [] in
  let! search := prop args "search" in
  let params := if truthy search then obj_set "search" search params else params in
  let! page := prop args "page" in
  let params := if truthy page then obj_set "page" page params else params in
  let! serverId := prop args "serverId" in
  let! server := to_string serverId in
  let! response :=
    request (mkCall GET ("/servers/" +:+ server +:+ "/databaseusers")
                    (Some params) None) in
  ret (text_result response).

Definition createDatabaseUser (args : arguments) : M Envelope :=
  let! serverId := prop args "serverId" in
  let! server := to_string serverId in
  let! username := prop args "username" in
  let! password := prop args "password" in
  let! response :=
    request (mkCall POST ("/servers/" +:+ server +:+ "/databaseusers") None
               (Some [("username", username); ("password", password)])) in
  ret (text_result response).

Definition listServices (args : arguments) : M Envelope :=
  let! serverId := prop args "serverId" in
  let! server := to_string serverId in
  let! response :=
    request (mkCall GET ("/servers/" +:+ server +:+ "/services") None None) in
  ret (text_result response).

Definition controlService (args : arguments) : M Envelope :=
  let! serverId := prop args "serverId" in
  let! server := to_string serverId in
  let! action := prop args "action" in
  let! service := prop args "service" in
  let! response :=
    request (mkCall PATCH ("/servers/" +:+ server +:+ "/services") None
                    (Some [("action", action); ("realName", service)])) in
  ret (text_result response).

Definition deployGit (args : arguments) : M Envelope :=
  let! serverId := prop args "serverId" in
  let! server := to_string serverId in
  let! webappId := prop args "webappId" in
  let! webapp := to_string webappId in
  let! gitId := prop args "gitId" in
  let! git := to_string gitId in
  let! response :=
    request (mkCall PUT
               ("/servers/" +:+ server +:+ "/webapps/" +:+ webapp +:+ "/git/"
                +:+ git +:+ "/script")
               None None) in
  ret (text_result response).

(** ** The CallToolRequestSchema handler *)

(** The [switch (name)] statement. *)
Definition dispatch (name : string) (args : arguments) : M Envelope :=
  if (name =? "list_servers")%string then listServers args
  else if (name =? "get_server")%string then getServer args
  else if (name =? "get_server_stats")%string then getServerStats args
  else if (name =? "list_webapps")%string then listWebapps args
  else if (name =? "get_webapp")%string then getWebapp args
  else if (name =? "create_webapp")%string then createWebapp args
  else if (name =? "list_databases")%string then listDatabases args
  else if (name =? "create_database")%string then createDatabase args
  else if (name =? "list_database_users")%string then listDatabaseUsers args
  else if (name =? "create_database_user")%string then createDatabaseUser args
  else if (name =? "list_services")%string then listServices args
  else if (name =? "control_service")%string then controlService args
  else if (name =? "deploy_git")%string then deployGit args
  else throw (McpError MethodNotFound ("Unknown tool: " +:+ name)).

(** The [catch (error)] block. *)
Definition on_error (error : js_error) : M Envelope :=
  match error with
  | AxiosError message (Some response) =>
      let! remote_message := member (data response) "message" in
      let! detail := to_string (if truthy remote_message
                                then remote_message
                                else Some (JStr message)) in
      throw (McpError InternalError ("RunCloud API Error: " +:+ detail))
  | _ => throw error
  end.

Definition callTool (name : string) (args : arguments) : M Envelope :=
  try_catch (dispatch name args) on_error.

(** ** The ListToolsRequestSchema handler *)

Record Property : Type := mkProperty {
  prop_name : string;
  prop_type : string;
  prop_enum : option (list string);
  prop_description : string
}.

Record InputSchema : Type := mkSchema {
  schema_type : string;
  properties : list Property;
  required : option (list string)
}.

Record Tool : Type := mkTool {
  tool_name : string;
  tool_description : string;
  inputSchema : InputSchema
}.

Definition serverId_property : Property :=
  mkProperty "serverId" "number" None "The ID of the server".

Definition webappId_property : Property :=
  mkProperty "webappId" "number" None "The ID of the web application".

Definition page_property : Property :=
  mkProperty "page" "number" None "Page number for pagination".

Definition listTools : list Tool :=
  [ mkTool "list_servers" "List all servers in your RunCloud account"
      (mkSchema "object"
         [ mkProperty "search" "string" None "Search servers by name";
           page_property ]
         None);
    mkTool "get_server" "Get detailed information about a specific server"
      (mkSchema "object" [serverId_property] (Some ["serverId"]));
    mkTool "get_server_stats" "Get statistics for a specific server"
      (mkSchema "object" [serverId_property] (Some ["serverId"]));
    mkTool "list_webapps" "List all web applications on a server"
      (mkSchema "object"
         [ serverId_property;
           mkProperty "search" "string" None "Search web apps by name";
           page_property ]
         (Some ["serverId"]));
    mkTool "get_webapp"
      "Get detailed information about a specific web application"
      (mkSchema "object" [serverId_property; webappId_property]
         (Some ["serverId"; "webappId"]));
    mkTool "create_webapp" "Create a new web application on a server"
      (mkSchema "object"
         [ serverId_property;
           mkProperty "name" "string" None "Name of the web application";
           mkProperty "domainName" "string" None
             "Domain name for the web application";
           mkProperty "user" "string" None
             "System user for the web application";
           mkProperty "phpVersion" "string" None
             ("PHP version (e.g., " +:+ dquote +:+ "php80rc" +:+ dquote +:+
              ", " +:+ dquote +:+ "php81rc" +:+ dquote +:+ ")");
           mkProperty "stack" "string" (Some ["hybrid"; "nativenginx"])
             "Web server stack";
           mkProperty "stackMode" "string"
             (Some ["production"; "development"]) "Stack mode" ]
         (Some ["serverId"; "name"; "domainName"; "user"; "phpVersion";
                "stack"; "stackMode"]));
    mkTool "list_databases" "List all databases on a server"
      (mkSchema "object"
         [ serverId_property;
           mkProperty "search" "string" None "Search databases by name";
           page_property ]
         (Some ["serverId"]));
    mkTool "create_database" "Create a new database on a server"
      (mkSchema "object"
         [ serverId_property;
           mkProperty "name" "string" None "Name of the database";
           mkProperty "collation" "string" None
             "Database collation (default: utf8mb4_unicode_ci)" ]
         (Some ["serverId"; "name"]));
    mkTool "list_database_users" "List all database users on a server"
      (mkSchema "object"
         [ serverId_property;
           mkProperty "search" "string" None "Search users by username";
           page_property ]
         (Some ["serverId"]));
    mkTool "create_database_user" "Create a new database user on a server"
      (mkSchema "object"
         [ serverId_property;
           mkProperty "username" "string" None
             "Username for the database user";
           mkProperty "password" "string" None
             "Password for the database user" ]
         (Some ["serverId"; "username"; "password"]));
    mkTool "list_services" "List all services on a server with their status"
      (mkSchema "object" [serverId_property] (Some ["serverId"]));
    mkTool "control_service"
      "Start, stop, restart, or reload a service on a server"
      (mkSchema "object"
         [ serverId_property;
           mkProperty "action" "string"
             (Some ["start"; "stop"; "restart"; "reload"])
             "Action to perform on the service";
           mkProperty "service" "string"
             (Some ["nginx-rc"; "apache2-rc"; "mysql"; "redis-server";
                    "memcached"; "beanstalkd"; "supervisord"])
             "Service name to control" ]
         (Some ["serverId"; "action"; "service"]));
    mkTool "deploy_git"
      "Deploy code from git repository for a web application"
      (mkSchema "object"
         [ serverId_property; webappId_property;
           mkProperty "gitId" "number" None
             "The ID of the git configuration" ]
         (Some ["serverId"; "webappId"; "gitId"])) ].

Definition tool_names : list string := map tool_name listTools.

(** The fields a tool's schema lists as required (none when the schema
    has no [required] key). *)
Definition required_fields (t : Tool) : list string :=
  default [] (required (inputSchema t)).

(** The declared fields that are not required. *)
Definition optional_fields (t : Tool) : list string :=
  filter (fun f => f ∉ required_fields t)
         (map prop_name (properties (inputSchema t))).

(** ** Module-level start-up *)

Record AxiosConfig : Type := mkConfig {
  baseURL : string;
  auth_username : option string;
  auth_password : option string;
  headers : list (string * string)
}.

(** What the process has done once the top-level code has run. *)
Record Process : Type := mkProcess {
  api : AxiosConfig;
  handlers_installed : bool;
  connected : bool;
  stderr : list string;
  exit_code : option Z
}.

(** [axios.create({ baseURL, auth, headers })] on the three environment
    reads; [||] replaces an absent or empty base URL. *)
Definition create_api (env : gmap string string) : AxiosConfig :=
  let RUNCLOUD_API_KEY := env !! "RUNCLOUD_API_KEY" in
  let RUNCLOUD_API_SECRET := env !! "RUNCLOUD_API_SECRET" in
  let RUNCLOUD_BASE_URL :=
    match env !! "RUNCLOUD_BASE_URL" with
    | Some url => if (url =? "")%string
                  then "https://manage.runcloud.io/api/v2" else url
    | None => "https://manage.runcloud.io/api/v2"
    end in
  mkConfig RUNCLOUD_BASE_URL RUNCLOUD_API_KEY RUNCLOUD_API_SECRET
    [("Content-Type", "application/json"); ("Accept", "application/json")].

(** The module body: the environment reads, [axios.create], [new
    RunCloudMCPServer()] and [server.run().catch(console.error)].
    [connect_failure] is the rejection of [this.server.connect], if any. *)
Definition startup (env : gmap string string) (connect_failure : option string)
  : Process :=
  let api := create_api env in
  match connect_failure with
  | None =>
      mkProcess api true true ["RunCloud MCP server running on stdio"] None
  | Some reason => mkProcess api true false [reason] None
  end.

(** The [SIGINT] handler installed by the constructor: the server is
    closed and the process exits with code 0, the only [process.exit] of
    the file. *)
Definition on_SIGINT (p : Process) : Process :=
  mkProcess (api p) (handlers_installed p) false (stderr p) (Some 0).

(** ** Vocabulary of the statements *)

(** The [params] object of the four listing handlers. *)
Definition list_params (o : gmap string json) : jsobj :=
  let params := [] in
  let params :=
    if truthy (o !! "search") then obj_set "search" (o !! "search") params
    else params in
  if truthy (o !! "page") then obj_set "page" (o !! "page") params
  else params.

(** Continue with the text of [v], if it has one. *)
Definition with_text {A : Type} (v : jsval) (k : string -> option A) : option A :=
  match js_to_string v with
  | Some s => k s
  | None => None
  end.

(** The one call a handler issues on an argument object, read off the
    handler bodies above ([callTool_run] proves the agreement); [None]
    when an identifier cannot be converted to a string, in which case
    the handler throws before calling. *)
Definition outbound (name : string) (o : gmap string json) : option OutboundCall :=
  if (name =? "list_servers")%string then
    Some (mkCall GET "/servers" (Some (list_params o)) None)
  else if (name =? "get_server")%string then
    with_text (o !! "serverId") (fun server =>
    Some (mkCall GET ("/servers/" +:+ server) None None))
  else if (name =? "get_server_stats")%string then
    with_text (o !! "serverId") (fun server =>
    Some (mkCall GET ("/servers/" +:+ server +:+ "/stats") None None))
  else if (name =? "list_webapps")%string then
    with_text (o !! "serverId") (fun server =>
    Some (mkCall GET ("/servers/" +:+ server +:+ "/webapps")
                 (Some (list_params o)) None))
  else if (name =? "get_webapp")%string then
    with_text (o !! "serverId") (fun server =>
    with_text (o !! "webappId") (fun webapp =>
    Some (mkCall GET ("/servers/" +:+ server +:+ "/webapps/" +:+ webapp)
                 None None)))
  else if (name =? "create_webapp")%string then
    with_text (o !! "serverId") (fun server =>
    Some (mkCall POST ("/servers/" +:+ server +:+ "/webapps/custom") None
            (Some [("name", o !! "name"); ("domainName", o !! "domainName");
                   ("user", o !! "user"); ("phpVersion", o !! "phpVersion");
                   ("stack", o !! "stack"); ("stackMode", o !! "stackMode")])))
  else if (name =? "list_databases")%string then
    with_text (o !! "serverId") (fun server =>
    Some (mkCall GET ("/servers/" +:+ server +:+ "/databases")
                 (Some (list_params o)) None))
  else if (name =? "create_database")%string then
    with_text (o !! "serverId") (fun server =>
    Some (mkCall POST ("/servers/" +:+ server +:+ "/databases") None
            (Some (if truthy (o !! "collation")
                   then obj_set "collation" (o !! "collation")
                                [("name", o !! "name")]
                   else [("name", o !! "name")]))))
  else if (name =? "list_database_users")%string then
    with_text (o !! "serverId") (fun server =>
    Some (mkCall GET ("/servers/" +:+ server +:+ "/databaseusers")
                 (Some (list_params o)) None))
  else if (name =? "create_database_user")%string then
    with_text (o !! "serverId") (fun server =>
    Some (mkCall POST ("/servers/" +:+ server +:+ "/databaseusers") None
            (Some [("username", o !! "username");
                   ("password", o !! "password")])))
  else if (name =? "list_services")%string then
    with_text (o !! "serverId") (fun server =>
    Some (mkCall GET ("/servers/" +:+ server +:+ "/services") None None))
  else if (name =? "control_service")%string then
    with_text (o !! "serverId") (fun server =>
    Some (mkCall PATCH ("/servers/" +:+ server +:+ "/services") None
            (Some [("action", o !! "action"); ("realName", o !! "service")])))
  else
    with_text (o !! "serverId") (fun server =>
    with_text (o !! "webappId") (fun webapp =>
    with_text (o !! "gitId") (fun git =>
    Some (mkCall PUT ("/servers/" +:+ server +:+ "/webapps/" +:+ webapp
                      +:+ "/git/" +:+ git +:+ "/script") None None)))).


(** The error a template literal throws on a value it cannot convert. *)
Definition conversion_error : js_error :=
  TypeError "Cannot convert object to primitive value".

(** The error code of the JSON-RPC answer to a rejected handler: the SDK
    copies the thrown value's numeric [code] when it has one, which among
    the values thrown here only an [McpError] does, and answers
    [InternalError] otherwise. *)
Definition protocol_code (e : js_error) : ErrorCode :=
  match e with
  | McpError c _ => c
  | _ => InternalError
  end.

(** [s] occurs in [m]. *)
Definition contains (s m : string) : Prop :=
  exists before after, m = before +:+ s +:+ after.

(** The remote that answers every call [200] with an empty object. *)
Definition remote_ok : remote_api := fun _ => Reply 200 (JObj []).

(** Whether a call carries the field [f], in its query or in its body. *)
Definition call_mentions (f : string) (c : OutboundCall) : bool :=
  match query c with Some q => has_key f q | None => false end ||
  match body c with Some b => has_key f b | None => false end.

(** The remote that answers every call [422] with a message. *)
Definition remote_name_taken : remote_api :=
  fun _ => Reply 422 (JObj [("message", JStr "Name already taken")]).

(** The pieces of [s] between occurrences of [sep]. *)
Fixpoint split_on (sep : ascii) (s : string) : list string :=
  match s with
  | EmptyString => [""]
  | String c rest =>
      if Ascii.eqb c sep then "" :: split_on sep rest
      else match split_on sep rest with
           | piece :: pieces => String c piece :: pieces
           | [] => [String c ""]
           end
  end.

(** The segments of an absolute path: what follows each ["/"]. *)
Definition path_segments (p : string) : list string :=
  tail (split_on "/" p).

Definition segment_count (c : OutboundCall) : nat :=
  length (path_segments (path c)).

Fixpoint count_char (c : ascii) (s : string) : nat :=
  match s with
  | EmptyString => 0
  | String c' rest => (if Ascii.eqb c' c then 1 else 0) + count_char c rest
  end.

(** The identifier fields that the paths embed. *)
Definition identifier_fields : list string := ["serverId"; "webappId"; "gitId"].

(** A tool that only reads, by its name. *)
Definition is_read_tool (name : string) : bool :=
  String.prefix "list_" name || String.prefix "get_" name.

(** The value a call carries for the field [f], in its query or, failing
    that, in its body. *)
Definition call_field (f : string) (c : OutboundCall) : option jsval :=
  match obj_get f (default [] (query c)) with
  | Some v => Some v
  | None => obj_get f (default [] (body c))
  end.

(** The required fields of a tool that are identifiers. *)
Definition embedded_identifiers (t : Tool) : list string :=
  filter (fun f => f ∈ identifier_fields) (required_fields t).

(** The remote that cannot be reached. *)
Definition remote_down : remote_api := fun _ => NoReply "connect ECONNREFUSED".

(** *** Reading the serializer's output *)

Fixpoint all_chars (P : ascii -> bool) (s : string) : bool :=
  match s with
  | EmptyString => true
  | String c rest => P c && all_chars P rest
  end.

Definition is_digit (c : ascii) : bool :=
  let n := nat_of_ascii c in ((48 <=? n) && (n <=? 57))%nat.

Definition is_letter (c : ascii) : bool :=
  let n := nat_of_ascii c in
  (((65 <=? n) && (n <=? 90)) || ((97 <=? n) && (n <=? 122)))%nat.

(** The characters of a number, of [null], [true] and [false]. *)
Definition word_char (c : ascii) : bool :=
  let n := nat_of_ascii c in
  (is_digit c || is_letter c || (n =? 46) || (n =? 43) || (n =? 45))%nat.











(** * Properties *)

(** ** How an invocation runs *)

Ltac each_tool H :=
  unfold tool_names in H; simpl in H;
  repeat (apply elem_of_cons in H as [-> | H]);
  [ .. | apply elem_of_nil in H; destruct H ].

Ltac run_handler :=
  unfold run, dispatch; cbn [String.eqb Ascii.eqb Bool.eqb];
  unfold listServers, getServer, getServerStats, listWebapps, getWebapp,
    createWebapp, listDatabases, createDatabase, listDatabaseUsers,
    createDatabaseUser, listServices, controlService, deployGit,
    bind, prop, ret, to_string, throw, request; cbv beta.

Lemma tool_names_listed :
  tool_names =
  [ "list_servers"; "get_server"; "get_server_stats"; "list_webapps";
    "get_webapp"; "create_webapp"; "list_databases"; "create_database";
    "list_database_users"; "create_database_user"; "list_services";
    "control_service"; "deploy_git" ].
Proof. reflexivity. Qed.

(** The [switch] arm of a registered tool, run on an argument object,
    converts the identifiers, issues its one call and wraps the
    response. *)
Lemma dispatch_run (remote : remote_api) (name : string) (o : gmap string json) :
  name ∈ tool_names ->
  run (dispatch name (Some o)) remote =
  match outbound name o with
  | Some c =>
      match settle (remote c) with
      | Return response => ([c], Return (text_result response))
      | Throw e => ([c], Throw e)
      end
  | None => ([], Throw conversion_error)
  end.
Proof.
  intros H.
  each_tool H; unfold outbound, with_text;
    cbn [String.eqb Ascii.eqb Bool.eqb]; run_handler;
    repeat (destruct (js_to_string _)); reflexivity.
Qed.

(** With the catch block around it: a rejection goes through [on_error],
    a conversion error passes it unchanged. *)
Lemma callTool_run (remote : remote_api) (name : string) (o : gmap string json) :
  name ∈ tool_names ->
  run (callTool name (Some o)) remote =
  match outbound name o with
  | Some c =>
      match settle (remote c) with
      | Return response => ([c], Return (text_result response))
      | Throw e => on_error e remote [c]
      end
  | None => ([], Throw conversion_error)
  end.
Proof.
  intros H. unfold run, callTool, try_catch.
  change (dispatch name (Some o) remote []) with (run (dispatch name (Some o)) remote).
  rewrite (dispatch_run remote name o H).
  destruct (outbound name o) as [c |]; [| reflexivity].
  destruct (settle (remote c)); reflexivity.
Qed.

Lemma in_tool_names (name : string) :
  In name [ "list_servers"; "get_server"; "get_server_stats"; "list_webapps";
            "get_webapp"; "create_webapp"; "list_databases";
            "create_database"; "list_database_users";
            "create_database_user"; "list_services"; "control_service";
            "deploy_git" ] ->
  name ∈ tool_names.
Proof. intros H. apply list_elem_of_In. exact H. Qed.

Ltac registered := apply in_tool_names; simpl; tauto.

(** The [default] arm: nothing is called, [MethodNotFound] is thrown and
    passes the catch block unchanged. *)
Lemma unknown_tool_run (remote : remote_api) (name : string) (args : arguments) :
  name ∉ tool_names ->
  run (callTool name args) remote =
  ([], Throw (McpError MethodNotFound ("Unknown tool: " +:+ name))).
Proof.
  intros H. unfold run, callTool, try_catch, dispatch.
  repeat match goal with
         | |- context [String.eqb name ?s] =>
             destruct (String.eqb_spec name s) as [-> | _];
             [ exfalso; apply H; registered | ]
         end.
  reflexivity.
Qed.

(** Called without an argument object, a registered tool stops at its
    first property read. *)
Lemma undefined_args_run (remote : remote_api) (name : string) :
  name ∈ tool_names ->
  exists m, run (callTool name None) remote = ([], Throw (TypeError m)).
Proof.
  intros H. each_tool H; eexists; reflexivity.
Qed.

Lemma settle_throws (r : http_reply) (e : js_error) :
  settle r = Throw e -> exists m response, e = AxiosError m response.
Proof.
  destruct r as [st payload | reason]; simpl.
  - destruct (andb _ _); [discriminate |].
    intros [= <-]. eauto.
  - intros [= <-]. eauto.
Qed.

(** The catch block throws: an upstream [InternalError], a [TypeError]
    of its own (a [null] error body, a message that cannot be
    converted), or the error it was given when that one has no
    response. *)
Lemma on_error_throws (e : js_error) (remote : remote_api) (log : list OutboundCall) :
  exists e',
    on_error e remote log = (log, Throw e') /\
    ((exists m, e' = McpError InternalError ("RunCloud API Error: " +:+ m)) \/
     (exists m, e' = TypeError m) \/
     e' = e).
Proof.
  destruct e as [c m | m [[st d] |] | m]; simpl;
    try (eexists; split; [reflexivity | tauto]).
  unfold on_error, member, bind, ret, throw, to_string. cbn [data].
  destruct d; cbv beta iota;
    try (eexists; split; [reflexivity | eauto]; fail);
    destruct (js_to_string _); eexists; (split; [reflexivity |]); eauto.
Qed.

(** Every failure of a registered tool. *)
Lemma registered_failure (remote : remote_api) (name : string) (args : arguments)
    (calls : list OutboundCall) (e : js_error) :
  name ∈ tool_names ->
  run (callTool name args) remote = (calls, Throw e) ->
  (exists m, e = McpError InternalError ("RunCloud API Error: " +:+ m)) \/
  (exists m, e = TypeError m) \/
  (exists m, e = AxiosError m None).
Proof.
  intros Hin Hrun. destruct args as [o |].
  - rewrite (callTool_run remote name o Hin) in Hrun.
    destruct (outbound name o) as [c |];
      [| injection Hrun as _ <-; unfold conversion_error; eauto].
    destruct (settle (remote c)) as [response | e0] eqn:Hs; [discriminate |].
    destruct (on_error_throws e0 remote [c]) as (e' & He' & Hcases).
    rewrite He' in Hrun. injection Hrun as _ <-.
    destruct Hcases as [? | [? | ->]]; [tauto | tauto |].
    destruct (settle_throws _ _ Hs) as (m & [response |] & ->); [| eauto].
    revert He'. unfold on_error, member, bind, ret, throw, to_string.
    destruct response as [st d]. cbn [data].
    destruct d; cbv beta iota; try (intros [=]; fail);
      destruct (js_to_string _); intros [=].
  - destruct (undefined_args_run remote name Hin) as (m & Hm).
    rewrite Hm in Hrun. injection Hrun as _ <-. eauto.
Qed.

Lemma listed_is_registered (t : Tool) : t ∈ listTools -> tool_name t ∈ tool_names.
Proof. intros H. unfold tool_names. apply list_elem_of_fmap. eauto. Qed.

(** ** Error codes *)

(** C5. A name outside the catalogue fails with [MethodNotFound] (the
    unknown-tool failure) before anything is called; every failure of a
    registered tool is reported with the one code [InternalError], and
    the only [McpError] such a tool throws is the [InternalError] of the
    catch block.  In particular [callTool("nonexistent_tool", {})] is an
    unknown-tool failure. *)
Theorem callTool_error_codes (remote : remote_api) (name : string) (args : arguments) :
  (name ∉ tool_names ->
   run (callTool name args) remote =
   ([], Throw (McpError MethodNotFound ("Unknown tool: " +:+ name)))) /\
  (name ∈ tool_names ->
   forall calls e,
     run (callTool name args) remote = (calls, Throw e) ->
     protocol_code e = InternalError /\
     (forall c m, e = McpError c m -> c = InternalError)) /\
  run (callTool "nonexistent_tool" (Some ∅)) remote =
  ([], Throw (McpError MethodNotFound "Unknown tool: nonexistent_tool")).
Proof.
  split; [| split].
  - apply unknown_tool_run.
  - intros Hin calls e Hrun.
    destruct (registered_failure remote name args calls e Hin Hrun)
      as [[m ->] | [[m ->] | [m ->]]]; simpl; split; try reflexivity;
      intros c m' [=]; congruence.
  - reflexivity.
Qed.

Lemma callTool_error_codes_witness :
  run (callTool "no_such_tool" None) remote_ok =
  ([], Throw (McpError MethodNotFound "Unknown tool: no_such_tool")) /\
  protocol_code (McpError InternalError "RunCloud API Error: Name already taken")
  = InternalError.
Proof.
  split.
  - apply (proj1 (callTool_error_codes remote_ok "no_such_tool" None)).
    intros H. apply list_elem_of_In in H. simpl in H. intuition discriminate.
  - apply (proj1 (proj2 (callTool_error_codes remote_name_taken "get_server"
                           (Some {[ "serverId" := JNum (int 7) ]})))
             ltac:(registered) [mkCall GET "/servers/7" None None]).
    vm_compute. reflexivity.
Defined.

(** ** Registry completeness *)

(** C9. Whatever the arguments and whatever the remote answers, calling a
    tool that the listing advertises never ends in the unknown-tool
    failure: every advertised name has its arm in the [switch]. *)
Theorem listed_tools_are_dispatched (remote : remote_api) (t : Tool)
    (args : arguments) (calls : list OutboundCall) (m : string) :
  t ∈ listTools ->
  run (callTool (tool_name t) args) remote
  <> (calls, Throw (McpError MethodNotFound m)).
Proof.
  intros Hin Hrun. apply listed_is_registered in Hin.
  destruct (registered_failure remote _ args calls _ Hin Hrun)
    as [[m' [=]] | [[m' [=]] | [m' [=]]]].
Qed.

Lemma listed_tools_are_dispatched_witness :
  run (callTool "get_server" (Some {[ "serverId" := JNum (int 7) ]}))
      remote_name_taken
  <> ([mkCall GET "/servers/7" None None],
      Throw (McpError MethodNotFound "Unknown tool: get_server")).
Proof.
  apply (listed_tools_are_dispatched remote_name_taken
           (mkTool "get_server"
              "Get detailed information about a specific server"
              (mkSchema "object" [serverId_property] (Some ["serverId"])))).
  apply list_elem_of_In. simpl. right. left. reflexivity.
Defined.

(** ** The serializer loses nothing *)


Lemma append_empty_r (s : string) : s +:+ "" = s.
Proof.
  induction s as [| c s IH]; [reflexivity |].
  change (String c (s +:+ "") = String c s). by rewrite IH.
Qed.


Lemma all_chars_app (P : ascii -> bool) (a b : string) :
  all_chars P (a +:+ b) = all_chars P a && all_chars P b.
Proof.
  induction a as [| x a IH]; [reflexivity |].
  change (P x && all_chars P (a +:+ b) = P x && all_chars P a && all_chars P b).
  rewrite IH. by destruct (P x).
Qed.

Lemma all_chars_impl (P Q : ascii -> bool) (s : string) :
  (forall c, P c = true -> Q c = true) ->
  all_chars P s = true -> all_chars Q s = true.
Proof.
  intros HPQ. induction s as [| c s IH]; [done |]. simpl.
  intros [Hc Hs]%andb_true_iff. by rewrite (HPQ c Hc), IH.
Qed.

Ltac each_ascii c := destruct c as [[] [] [] [] [] [] [] []].

Lemma digit_is_word (c : ascii) : is_digit c = true -> word_char c = true.
Proof. each_ascii c; vm_compute; done. Qed.



(** *** The characters of a number *)

Lemma all_chars_take (P : ascii -> bool) (n : nat) (s : string) :
  all_chars P s = true -> all_chars P (str_take n s) = true.
Proof.
  revert s. induction n as [| n IH]; intros [| c s]; simpl; try done.
  intros [Hc Hs]%andb_true_iff. by rewrite Hc, IH.
Qed.

Lemma all_chars_drop (P : ascii -> bool) (n : nat) (s : string) :
  all_chars P s = true -> all_chars P (str_drop n s) = true.
Proof.
  revert s. induction n as [| n IH]; intros [| c s]; simpl; try done.
  intros [Hc Hs]%andb_true_iff. by apply IH.
Qed.

Lemma all_chars_zeros (n : nat) : all_chars word_char (zeros n) = true.
Proof. induction n as [| n IH]; [done |]. simpl. by rewrite IH. Qed.

Lemma all_chars_strip (P : ascii -> bool) (s : string) :
  all_chars P s = true -> all_chars P (strip_zeros s).1 = true.
Proof.
  induction s as [| c s IH]; [done |]. simpl.
  intros [Hc Hs]%andb_true_iff. specialize (IH Hs).
  destruct (strip_zeros s) as [rest z]. simpl in IH.
  destruct (andb _ _); simpl; [done |]. by rewrite Hc, IH.
Qed.

Lemma all_chars_pretty_N_go (x : N) (s : string) :
  all_chars is_digit (pretty_N_go x s) = all_chars is_digit s.
Proof.
  revert s. induction (N.lt_wf_0 x) as [x _ IH]; intros s.
  destruct (decide (x = 0)%N) as [-> | Hx].
  - by rewrite pretty_N_go_0.
  - rewrite pretty_N_go_step by lia.
    rewrite IH by (apply N.div_lt; lia).
    unfold pretty_N_char. by repeat case_match.
Qed.

Lemma all_chars_pretty_N (x : N) : all_chars is_digit (pretty x) = true.
Proof.
  unfold pretty, pretty_N. case_decide; [done |].
  by rewrite all_chars_pretty_N_go.
Qed.

Lemma all_chars_pretty_abs (z : Z) :
  all_chars word_char (pretty (Z.abs z)) = true.
Proof.
  apply (all_chars_impl is_digit); [apply digit_is_word |].
  destruct z as [| p | p]; [done | apply (all_chars_pretty_N (Npos p)) ..].
Qed.

Lemma all_chars_layout (ds : string) (n : Z) :
  all_chars word_char ds = true -> all_chars word_char (layout ds n) = true.
Proof.
  intros Hds. unfold layout.
  repeat case_match;
    rewrite ?all_chars_app, ?all_chars_zeros, ?all_chars_pretty_abs,
      ?all_chars_take, ?all_chars_drop, ?Hds by exact Hds;
    reflexivity.
Qed.

Lemma number_to_string_chars (x : number) :
  all_chars word_char (number_to_string x) = true.
Proof.
  destruct x as [| negative p e | []]; try done.
  unfold number_to_string.
  pose proof (all_chars_strip word_char (pretty (Npos p))
                (all_chars_impl is_digit word_char _ digit_is_word
                   (all_chars_pretty_N (Npos p)))) as Hds.
  destruct (strip_zeros (pretty (Npos p))) as [ds z]. simpl in Hds.
  rewrite all_chars_app, all_chars_layout by exact Hds.
  by destruct negative.
Qed.


Lemma all_chars_count (P : ascii -> bool) (c : ascii) (s : string) :
  all_chars P s = true -> P c = false -> count_char c s = 0%nat.
Proof.
  intros Hs Hc. induction s as [| c' s IH]; [done |]. simpl in *.
  apply andb_true_iff in Hs as [Hc' Hs].
  destruct (Ascii.eqb_spec c' c) as [-> | _]; [congruence |]. by rewrite IH.
Qed.

(** A number has no path separator in it. *)
Lemma count_slash_number (x : number) :
  count_char "/" (number_to_string x) = 0%nat.
Proof.
  apply (all_chars_count word_char); [apply number_to_string_chars | done].
Qed.

(** *** Where a printed value ends *)












(** *** Quoted strings *)





(** *** Arrays and objects *)







(** ** The calls of an invocation *)

Lemma settle_rejects (st : Z) (payload : json) :
  ~ (200 <= st < 300) ->
  settle (Reply st payload) =
  Throw (AxiosError ("Request failed with status code " +:+ pretty st)
                    (Some (mkResponse st payload))).
Proof.
  intros H. unfold settle.
  destruct (andb _ _) eqn:E; [| reflexivity].
  apply andb_true_iff in E as [E1 E2]. lia.
Qed.


(** The calls of an invocation do not depend on what the remote answers. *)
Lemma calls_of_run (remote : remote_api) (name : string) (o : gmap string json) :
  name ∈ tool_names ->
  (run (callTool name (Some o)) remote).1 =
  match outbound name o with Some c => [c] | None => [] end.
Proof.
  intros H. rewrite (callTool_run remote name o H).
  destruct (outbound name o) as [c |]; [| reflexivity].
  destruct (settle (remote c)) as [response | e]; [reflexivity |].
  destruct (on_error_throws e remote [c]) as (e' & -> & _).
  reflexivity.
Qed.

(** An invocation that called anything is a registered tool on an
    argument object, and called once. *)
Lemma calls_made (remote : remote_api) (name : string) (args : arguments)
    (c : OutboundCall) :
  c ∈ (run (callTool name args) remote).1 ->
  exists o, args = Some o /\ name ∈ tool_names /\ outbound name o = Some c.
Proof.
  intros Hc. destruct (decide (name ∈ tool_names)) as [Hin | Hout].
  - destruct args as [o |].
    + rewrite (calls_of_run remote name o Hin) in Hc.
      destruct (outbound name o) as [c' |] eqn:Ho; simpl in Hc.
      * apply list_elem_of_singleton in Hc as ->. eauto.
      * by apply elem_of_nil in Hc.
    + destruct (undefined_args_run remote name Hin) as (m & Hm).
      rewrite Hm in Hc. simpl in Hc. by apply elem_of_nil in Hc.
  - rewrite (unknown_tool_run remote name args Hout) in Hc.
    simpl in Hc. by apply elem_of_nil in Hc.
Qed.

Ltac open_outbound H :=
  unfold outbound, with_text in H;
  cbn [tool_name String.eqb Ascii.eqb Bool.eqb] in H;
  repeat match type of H with
         | context [js_to_string ?v] => destruct (js_to_string v) eqn:?
         end;
  try discriminate H; injection H as <-.

Ltac each_listed H :=
  unfold listTools in H;
  repeat (apply elem_of_cons in H as [-> | H]);
  [ .. | apply elem_of_nil in H; destruct H ].

Ltac each_field H :=
  vm_compute in H; apply list_elem_of_In in H; simpl in H;
  repeat (destruct H as [<- | H]); try (destruct H).

Ltac each_name H :=
  simpl in H; repeat (destruct H as [<- | H]); try (destruct H).





(** ** Upstream errors *)

Lemma contains_self (s : string) : contains s s.
Proof. exists "", "". change (s = s +:+ ""). by rewrite append_empty_r. Qed.

Lemma contains_empty (m : string) : contains "" m.
Proof. exists "", m. reflexivity. Qed.

Lemma count_char_app (c : ascii) (s1 s2 : string) :
  count_char c (s1 +:+ s2) = (count_char c s1 + count_char c s2)%nat.
Proof.
  induction s1 as [| c1 s1 IH]; [reflexivity |].
  change (String c1 s1 +:+ s2) with (String c1 (s1 +:+ s2)).
  simpl. rewrite IH. lia.
Qed.

Lemma contains_count (c : ascii) (s m : string) :
  contains s m -> (count_char c s <= count_char c m)%nat.
Proof. intros (a & b & ->). rewrite !count_char_app. lia. Qed.

(** C6, as stated, fails when the [message] of the error body is not a
    text.  A 422 whose message is the object [{name: ["has been taken"]}]
    is reported as [RunCloud API Error: [object Object]], and one whose
    message is the number 0 with axios' own message: neither failure
    message contains what the remote said. *)
Lemma remote_message_can_be_lost :
  run (callTool "create_database"
         (Some {[ "serverId" := JNum (int 5); "name" := JStr "app_db" ]}))
      (fun _ => Reply 422
                  (JObj [("message",
                          JObj [("name", JArr [JStr "has been taken"])])])) =
  ([mkCall POST "/servers/5/databases" None
      (Some [("name", Some (JStr "app_db"))])],
   Throw (McpError InternalError "RunCloud API Error: [object Object]")) /\
  ~ contains "has been taken" "RunCloud API Error: [object Object]" /\
  run (callTool "create_database"
         (Some {[ "serverId" := JNum (int 5); "name" := JStr "app_db" ]}))
      (fun _ => Reply 422 (JObj [("message", JNum (int 0))])) =
  ([mkCall POST "/servers/5/databases" None
      (Some [("name", Some (JStr "app_db"))])],
   Throw (McpError InternalError
            "RunCloud API Error: Request failed with status code 422")) /\
  ~ contains "0" "RunCloud API Error: Request failed with status code 422".
Proof.
  split; [vm_compute; reflexivity |].
  split; [intros H; apply (contains_count "k") in H; vm_compute in H; lia |].
  split; [vm_compute; reflexivity |].
  intros H. apply (contains_count "0") in H. vm_compute in H. lia.
Qed.

(** C6, amended.  When the remote answers the call of an invocation with
    a status outside 2xx and a JSON object whose [message] is a string
    [s], the invocation made that one call and fails with one error, the
    [InternalError] whose message is the upstream prefix followed by a
    text containing [s] (by [s] itself unless it is empty).  A 422 with
    [{"message":"Name already taken"}] gives a message containing
    [Name already taken]. *)
Theorem remote_error_is_surfaced (remote : remote_api) (name : string)
    (args : arguments) (c : OutboundCall) (st : Z)
    (kvs : list (string * json)) (s : string) :
  c ∈ (run (callTool name args) remote).1 ->
  remote c = Reply st (JObj kvs) ->
  ~ (200 <= st < 300) ->
  obj_get "message" kvs = Some (JStr s) ->
  exists detail,
    run (callTool name args) remote =
    ([c], Throw (McpError InternalError ("RunCloud API Error: " +:+ detail))) /\
    contains s detail /\
    contains s ("RunCloud API Error: " +:+ detail) /\
    (s <> "" -> detail = s).
Proof.
  intros Hc Hreply Hst Hmsg.
  destruct (calls_made remote name args c Hc) as (o & -> & Hin & Ho).
  rewrite (callTool_run remote name o Hin), Ho, Hreply, (settle_rejects _ _ Hst).
  unfold on_error. cbn [data member]. rewrite Hmsg.
  unfold bind, ret, throw, to_string.
  assert (Hpre : forall d, contains s d ->
                           contains s ("RunCloud API Error: " +:+ d)).
  { intros d (a & b & ->). exists ("RunCloud API Error: " +:+ a), b.
    reflexivity. }
  unfold truthy. destruct (String.eqb_spec s "") as [-> | Hne]; simpl.
  - eexists. split; [reflexivity |].
    split; [apply contains_empty |]. split; [apply contains_empty | done].
  - exists s. split; [reflexivity |].
    split; [apply contains_self |]. split; [apply Hpre, contains_self | done].
Qed.

Lemma remote_error_is_surfaced_witness :
  exists detail,
    run (callTool "create_database"
           (Some {[ "serverId" := JNum (int 5); "name" := JStr "app_db" ]}))
        remote_name_taken =
    ([mkCall POST "/servers/5/databases" None
        (Some [("name", Some (JStr "app_db"))])],
     Throw (McpError InternalError ("RunCloud API Error: " +:+ detail))) /\
    contains "Name already taken" detail /\
    contains "Name already taken" ("RunCloud API Error: " +:+ detail) /\
    ("Name already taken" <> "" -> detail = "Name already taken").
Proof.
  apply (remote_error_is_surfaced remote_name_taken "create_database"
           (Some {[ "serverId" := JNum (int 5); "name" := JStr "app_db" ]})
           (mkCall POST "/servers/5/databases" None
              (Some [("name", Some (JStr "app_db"))]))
           422 [("message", JStr "Name already taken")] "Name already taken").
  - vm_compute. apply list_elem_of_here.
  - reflexivity.
  - lia.
  - reflexivity.
Defined.

(** ** Success *)



(** ** Optional fields *)

(** C8. When the argument object omits a declared, non-required field,
    no call of the invocation carries that field, neither in its query
    nor in its body: the key is absent, not present with [null] or an
    empty string.  In particular [callTool("list_servers", {})] calls
    [GET /servers] with the empty query object. *)
Theorem omitted_optional_field_is_absent (remote : remote_api) (t : Tool)
    (o : gmap string json) (f : string) (c : OutboundCall) :
  t ∈ listTools ->
  f ∈ optional_fields t ->
  o !! f = None ->
  c ∈ (run (callTool (tool_name t) (Some o)) remote).1 ->
  call_mentions f c = false /\
  (run (callTool "list_servers" (Some ∅)) remote).1 =
  [mkCall GET "/servers" (Some []) None].
Proof.
  intros Ht Hf Ho Hc. split.
  - destruct (calls_made remote _ _ c Hc) as (o' & [= <-] & _ & Hout).
    each_listed Ht; each_field Hf; open_outbound Hout;
      unfold list_params; rewrite ?Ho; cbn [truthy];
      repeat case_match; reflexivity.
  - rewrite (calls_of_run remote "list_servers" ∅) by registered.
    vm_compute. reflexivity.
Qed.

Lemma omitted_optional_field_is_absent_witness :
  call_mentions "search"
    (mkCall GET "/servers" (Some [("page", Some (JNum (int 2)))]) None) = false /\
  (run (callTool "list_servers" (Some ∅)) remote_ok).1 =
  [mkCall GET "/servers" (Some []) None].
Proof.
  apply (omitted_optional_field_is_absent remote_ok
           (mkTool "list_servers" "List all servers in your RunCloud account"
              (mkSchema "object"
                 [ mkProperty "search" "string" None "Search servers by name";
                   page_property ]
                 None))
           {[ "page" := JNum (int 2) ]} "search").
  - apply list_elem_of_here.
  - vm_compute. apply list_elem_of_here.
  - reflexivity.
  - vm_compute. apply list_elem_of_here.
Defined.

(** The declared fields a caller may leave out, tool by tool. *)
Lemma optional_fields_listed :
  map (fun t => (tool_name t, optional_fields t)) listTools =
  [ ("list_servers", ["search"; "page"]);
    ("get_server", []);
    ("get_server_stats", []);
    ("list_webapps", ["search"; "page"]);
    ("get_webapp", []);
    ("create_webapp", []);
    ("list_databases", ["search"; "page"]);
    ("create_database", ["collation"]);
    ("list_database_users", ["search"; "page"]);
    ("create_database_user", []);
    ("list_services", []);
    ("control_service", []);
    ("deploy_git", []) ].
Proof. vm_compute. reflexivity. Qed.

(** C10. For the four listing tools a [search] or [page] argument that
    is falsy ([0], the empty string, [null], [false]) is dropped from
    the query, and for [create_database] a falsy [collation] is dropped
    from the body: the whole invocation, calls and outcome, is the one
    obtained with the field absent. *)
Theorem falsy_optional_is_dropped (remote : remote_api) (name f : string)
    (v : json) (o : gmap string json) :
  (In name ["list_servers"; "list_webapps"; "list_databases";
            "list_database_users"] /\ In f ["search"; "page"]) \/
  (name = "create_database" /\ f = "collation") ->
  truthy (Some v) = false ->
  run (callTool name (Some (<[f := v]> o))) remote =
  run (callTool name (Some (delete f o))) remote.
Proof.
  intros Hcase Hv.
  assert (Hin : name ∈ tool_names).
  { destruct Hcase as [[Hn _] | [-> _]]; [each_name Hn |]; registered. }
  assert (E : outbound name (<[f := v]> o) = outbound name (delete f o)).
  { destruct Hcase as [[Hn Hf] | [-> ->]]; [each_name Hn; each_name Hf |];
      unfold outbound, list_params;
      cbn [String.eqb Ascii.eqb Bool.eqb];
      rewrite ?lookup_insert_eq, ?lookup_delete_eq, ?Hv;
      rewrite ?lookup_insert_ne, ?lookup_delete_ne by discriminate;
      reflexivity. }
  by rewrite !callTool_run, E.
Qed.

Lemma falsy_optional_is_dropped_witness :
  run (callTool "list_webapps"
         (Some (<[ "page" := JNum (int 0) ]> {[ "serverId" := JNum (int 5) ]})))
      remote_ok =
  run (callTool "list_webapps"
         (Some (delete "page" {[ "serverId" := JNum (int 5) ]}))) remote_ok.
Proof.
  apply (falsy_optional_is_dropped remote_ok "list_webapps" "page" (JNum (int 0))
           {[ "serverId" := JNum (int 5) ]}).
  - left. simpl. tauto.
  - reflexivity.
Defined.

(** ** The runtime operations on small inputs *)

Example stringify_nested :
  JSON_stringify (JObj [("ids", JArr [JNum (int 1); JNum (int (-2))]);
                        ("ok", JBool true);
                        ("none", JArr []); ("next", JNull)]) =
  "{" +:+ newline +:+
  "  " +:+ dquote +:+ "ids" +:+ dquote +:+ ": [" +:+ newline +:+
  "    1," +:+ newline +:+
  "    -2" +:+ newline +:+
  "  ]," +:+ newline +:+
  "  " +:+ dquote +:+ "ok" +:+ dquote +:+ ": true," +:+ newline +:+
  "  " +:+ dquote +:+ "none" +:+ dquote +:+ ": []," +:+ newline +:+
  "  " +:+ dquote +:+ "next" +:+ dquote +:+ ": null" +:+ newline +:+
  "}".
Proof. vm_compute. reflexivity. Qed.

Example stringify_escapes :
  JSON_stringify (JStr ("a" +:+ dquote +:+ "b" +:+ newline +:+ backslash)) =
  dquote +:+ "a" +:+ backslash +:+ dquote +:+ "b" +:+ backslash +:+ "n" +:+
  backslash +:+ backslash +:+ dquote.
Proof. vm_compute. reflexivity. Qed.

(** Integers, a fraction, small and large magnitudes, an infinity. *)
Example number_to_string_values :
  map number_to_string
      [ int 0; int 123; int (-7); int 1000;
        int 100000000000000000000; int 1000000000000000000000;
        Finite false 15 (-1); Finite true 5 (-1); Finite false 12345 (-2);
        Finite false 1 (-6); Finite false 1 (-7); Finite false 15 24;
        Finite false 120 (-1); Infinite true ] =
  [ "0"; "123"; "-7"; "1000";
    "100000000000000000000"; "1e+21";
    "1.5"; "-0.5"; "123.45";
    "0.000001"; "1e-7"; "1.5e+25";
    "12"; "-Infinity" ].
Proof. vm_compute. reflexivity. Qed.

Example stringify_numbers :
  JSON_stringify (JArr [JNum (int 1000000000000000000000);
                        JNum (Finite false 15 (-1)); JNum (Infinite false)]) =
  "[" +:+ newline +:+ "  1e+21," +:+ newline +:+ "  1.5," +:+ newline +:+
  "  null" +:+ newline +:+ "]".
Proof. vm_compute. reflexivity. Qed.

(** [undefined], atoms, a nested array, plain objects, and the objects a
    template literal cannot convert. *)
Example js_to_string_values :
  map js_to_string
      [ None; Some JNull; Some (JNum (int (-12))); Some (JStr "a/b");
        Some (JArr [JNum (int 1); JNull; JArr [JStr "x"; JObj []]]);
        Some (JObj [("valueOf", JNull)]);
        Some (JObj [("toString", JNum (int 1))]);
        Some (JArr [JNum (int 1); JObj [("toString", JNull)]]) ] =
  [ Some "undefined"; Some "null"; Some "-12"; Some "a/b";
    Some "1,,x,[object Object]";
    Some "[object Object]";
    None;
    None ].
Proof. vm_compute. reflexivity. Qed.

(** ** No validation of required fields *)




(** ** No default collation *)

(** C2, as stated, fails: for [{serverId: 5, name: "app_db"}] the body
    of the call is [{name: "app_db"}], not the body with the collation
    [utf8mb4_general_ci] added. *)
Lemma create_database_sends_no_collation :
  (run (callTool "create_database"
          (Some {[ "serverId" := JNum (int 5); "name" := JStr "app_db" ]}))
       remote_ok).1 =
  [mkCall POST "/servers/5/databases" None
     (Some [("name", Some (JStr "app_db"))])] /\
  (run (callTool "create_database"
          (Some {[ "serverId" := JNum (int 5); "name" := JStr "app_db" ]}))
       remote_ok).1 <>
  [mkCall POST "/servers/5/databases" None
     (Some [("name", Some (JStr "app_db"));
            ("collation", Some (JStr "utf8mb4_general_ci"))])].
Proof.
  assert (E : (run (callTool "create_database"
                      (Some {[ "serverId" := JNum (int 5);
                               "name" := JStr "app_db" ]}))
                   remote_ok).1 =
              [mkCall POST "/servers/5/databases" None
                 (Some [("name", Some (JStr "app_db"))])])
    by (vm_compute; reflexivity).
  split; [exact E |]. rewrite E. discriminate.
Qed.

(** C2, amended.  [create_database] called without [collation], with a
    [serverId] whose text is [server], posts to
    [/servers/{server}/databases] a body holding the supplied name and
    nothing else: no collation is added, the default is left to the
    remote.  For [{serverId: 5, name: "app_db"}] the body is
    [{name: "app_db"}]. *)
Theorem create_database_without_collation (remote : remote_api)
    (o : gmap string json) (server : string) :
  o !! "collation" = None ->
  js_to_string (o !! "serverId") = Some server ->
  (run (callTool "create_database" (Some o)) remote).1 =
  [mkCall POST ("/servers/" +:+ server +:+ "/databases")
     None (Some [("name", o !! "name")])] /\
  (run (callTool "create_database"
          (Some {[ "serverId" := JNum (int 5); "name" := JStr "app_db" ]}))
       remote).1 =
  [mkCall POST "/servers/5/databases" None
     (Some [("name", Some (JStr "app_db"))])].
Proof.
  intros Ho Hs. rewrite !calls_of_run by registered. split.
  - unfold outbound, with_text. cbn [String.eqb Ascii.eqb Bool.eqb].
    by rewrite Hs, Ho.
  - vm_compute. reflexivity.
Qed.

Lemma create_database_without_collation_witness :
  (run (callTool "create_database"
          (Some {[ "serverId" := JNum (int 1000000000000000000000);
                   "name" := JStr "shop" ]}))
       remote_name_taken).1 =
  [mkCall POST "/servers/1e+21/databases" None
     (Some [("name", Some (JStr "shop"))])].
Proof.
  pose proof (proj1 (create_database_without_collation remote_name_taken
                       {[ "serverId" := JNum (int 1000000000000000000000);
                          "name" := JStr "shop" ]} "1e+21"
                       eq_refl ltac:(vm_compute; reflexivity))) as P.
  vm_compute in P. vm_compute. exact P.
Defined.

(** ** Identifiers in paths *)

Lemma split_on_length (sep : ascii) (s : string) :
  length (split_on sep s) = S (count_char sep s).
Proof.
  induction s as [| c rest IH]; [reflexivity |].
  simpl. destruct (Ascii.eqb c sep); simpl.
  - by rewrite IH.
  - destruct (split_on sep rest); simpl in *; congruence.
Qed.

Lemma path_segments_length (p : string) :
  length (path_segments p) = count_char "/" p.
Proof.
  unfold path_segments.
  pose proof (split_on_length "/" p) as H.
  destruct (split_on "/" p); simpl in *; congruence.
Qed.

(** C3, as stated, fails: the string ["5/databases"] given as [serverId]
    to [get_server] yields the three-segment path of the database
    listing, where the number 123 yields two segments. *)
Lemma separator_in_identifier_adds_segments :
  map (fun c => path_segments (path c))
      (run (callTool "get_server"
              (Some {[ "serverId" := JStr "5/databases" ]})) remote_ok).1 =
  [["servers"; "5"; "databases"]] /\
  map (fun c => path_segments (path c))
      (run (callTool "get_server"
              (Some {[ "serverId" := JNum (int 123) ]})) remote_ok).1 =
  [["servers"; "123"]] /\
  map segment_count
      (run (callTool "get_server"
              (Some {[ "serverId" := JStr "5/databases" ]})) remote_ok).1 <>
  map segment_count
      (run (callTool "get_server"
              (Some {[ "serverId" := JNum (int 123) ]})) remote_ok).1.
Proof.
  split; [vm_compute; reflexivity |].
  split; [vm_compute; reflexivity |].
  vm_compute. discriminate.
Qed.

Ltac numeric_identifier H k x1 H1 x2 H2 :=
  try (destruct (H k) as [[x1 H1] [x2 H2]];
       [vm_compute; apply list_elem_of_In; simpl; tauto |]).

(** C3, amended.  When the identifiers a tool requires are given as
    numbers, the type the schemas declare for them, the number of path
    segments of the tool's call is the same whichever numbers they are:
    the text of a number (an integer, a fraction, an exponent form, an
    infinity) contains no separator. *)
Theorem numeric_identifiers_keep_segments (remote1 remote2 : remote_api)
    (t : Tool) (o1 o2 : gmap string json) :
  t ∈ listTools ->
  (forall k, k ∈ embedded_identifiers t ->
             (exists x, o1 !! k = Some (JNum x)) /\
             (exists x, o2 !! k = Some (JNum x))) ->
  map segment_count (run (callTool (tool_name t) (Some o1)) remote1).1 =
  map segment_count (run (callTool (tool_name t) (Some o2)) remote2).1.
Proof.
  intros Ht Hnum.
  rewrite !calls_of_run by (by apply listed_is_registered).
  each_listed Ht;
    numeric_identifier Hnum "serverId" s1 Hs1 s2 Hs2;
    numeric_identifier Hnum "webappId" w1 Hw1 w2 Hw2;
    numeric_identifier Hnum "gitId" g1 Hg1 g2 Hg2;
    unfold outbound, with_text, segment_count;
    cbn [tool_name String.eqb Ascii.eqb Bool.eqb];
    rewrite ?Hs1, ?Hs2, ?Hw1, ?Hw2, ?Hg1, ?Hg2;
    cbn [js_to_string json_to_string map path];
    rewrite !path_segments_length, ?count_char_app, ?count_slash_number;
    reflexivity.
Qed.

Lemma numeric_identifiers_keep_segments_witness :
  map segment_count
      (run (callTool "get_server" (Some {[ "serverId" := JNum (int 123) ]}))
           remote_ok).1 =
  map segment_count
      (run (callTool "get_server"
              (Some {[ "serverId" := JNum (Finite false 15 (-1)) ]}))
           remote_name_taken).1.
Proof.
  apply (numeric_identifiers_keep_segments remote_ok remote_name_taken
           (mkTool "get_server"
              "Get detailed information about a specific server"
              (mkSchema "object" [serverId_property] (Some ["serverId"])))).
  - apply list_elem_of_In. simpl. right. left. reflexivity.
  - intros k Hk. vm_compute in Hk. apply list_elem_of_In in Hk. simpl in Hk.
    destruct Hk as [<- | []]; split; eexists; reflexivity.
Defined.

(** ** Start-up *)

(** Start-up never exits and never reports on the environment: the two
    credentials go unchecked into the client. *)
Lemma startup_never_exits (env : gmap string string)
    (connect_failure : option string) :
  exit_code (startup env connect_failure) = None /\
  handlers_installed (startup env connect_failure) = true /\
  auth_username (api (startup env connect_failure)) = env !! "RUNCLOUD_API_KEY" /\
  auth_password (api (startup env connect_failure)) = env !! "RUNCLOUD_API_SECRET".
Proof. destruct connect_failure; repeat split. Qed.

(** C4.  Evaluation at the failing input.  With neither credential in
    the environment the module still builds the client, with [undefined]
    user name and password, installs the handlers and connects; the only
    line on stderr is the running banner and no exit code is set, where
    the claim asks for a diagnostic and a non-zero exit. *)
Theorem startup_without_credentials :
  startup ∅ None =
  mkProcess
    (mkConfig "https://manage.runcloud.io/api/v2" None None
       [("Content-Type", "application/json"); ("Accept", "application/json")])
    true true ["RunCloud MCP server running on stdio"] None.
Proof. vm_compute. reflexivity. Qed.

(** * Further properties of the dispatcher and the handlers *)

(** ** Calls made *)

(** X4. What an invocation sends does not depend on what the remote
    answers. *)
Theorem calls_do_not_depend_on_answers (remote1 remote2 : remote_api)
    (name : string) (args : arguments) :
  (run (callTool name args) remote1).1 = (run (callTool name args) remote2).1.
Proof.
  destruct (decide (name ∈ tool_names)) as [Hin | Hout].
  - destruct args as [o |].
    + by rewrite !calls_of_run.
    + destruct (undefined_args_run remote1 name Hin) as (m1 & ->).
      destruct (undefined_args_run remote2 name Hin) as (m2 & ->).
      reflexivity.
  - by rewrite !unknown_tool_run.
Qed.



(** X1. A tool named [list_...] or [get_...] issues a [GET] without a
    body; every other tool issues a call that is not a [GET] and has no
    query. *)
Theorem read_tools_get_others_do_not (remote : remote_api) (name : string)
    (args : arguments) (c : OutboundCall) :
  c ∈ (run (callTool name args) remote).1 ->
  if is_read_tool name
  then method c = GET /\ body c = None
  else method c <> GET /\ query c = None.
Proof.
  intros Hc. destruct (calls_made remote name args c Hc) as (o & -> & Hin & Ho).
  each_tool Hin; open_outbound Ho; lazy; split; done.
Qed.

Lemma read_tools_get_others_do_not_witness :
  method (mkCall PUT "/servers/5/webapps/12/git/3/script" None None) <> GET /\
  query (mkCall PUT "/servers/5/webapps/12/git/3/script" None None) = None.
Proof.
  apply (read_tools_get_others_do_not remote_ok "deploy_git"
           (Some {[ "serverId" := JNum (int 5); "webappId" := JNum (int 12);
                    "gitId" := JNum (int 3) ]})
           (mkCall PUT "/servers/5/webapps/12/git/3/script" None None)).
  vm_compute. apply list_elem_of_here.
Defined.

(** ** Arguments *)

(** X2. A listed tool called without an argument object calls nothing
    and fails with the [TypeError] of reading one of its declared
    fields from [undefined]; the catch block lets it through. *)
Theorem no_argument_object (remote : remote_api) (t : Tool) :
  t ∈ listTools ->
  exists k,
    k ∈ map prop_name (properties (inputSchema t)) /\
    run (callTool (tool_name t) None) remote =
    ([], Throw (TypeError ("Cannot read properties of undefined (reading '"
                           +:+ k +:+ "')"))).
Proof.
  intros Ht.
  each_listed Ht; eexists; (split; [| reflexivity]);
    apply list_elem_of_In; simpl; tauto.
Qed.

Lemma no_argument_object_witness :
  exists k,
    k ∈ ["serverId"; "name"; "collation"] /\
    run (callTool "create_database" None) remote_ok =
    ([], Throw (TypeError ("Cannot read properties of undefined (reading '"
                           +:+ k +:+ "')"))).
Proof.
  apply (no_argument_object remote_ok
           (mkTool "create_database" "Create a new database on a server"
              (mkSchema "object"
                 [ serverId_property;
                   mkProperty "name" "string" None "Name of the database";
                   mkProperty "collation" "string" None
                     "Database collation (default: utf8mb4_unicode_ci)" ]
                 (Some ["serverId"; "name"]))) ).
  apply list_elem_of_In. simpl. do 7 right. left. reflexivity.
Defined.

(** X3. Only the fields a tool declares reach the remote: two argument
    objects that agree on the declared properties give the same run,
    whatever else they hold. *)
Theorem undeclared_arguments_are_ignored (remote : remote_api) (t : Tool)
    (o o' : gmap string json) :
  t ∈ listTools ->
  (forall k, k ∈ map prop_name (properties (inputSchema t)) ->
             o !! k = o' !! k) ->
  run (callTool (tool_name t) (Some o)) remote =
  run (callTool (tool_name t) (Some o')) remote.
Proof.
  intros Ht Hagree.
  assert (E : outbound (tool_name t) o = outbound (tool_name t) o').
  { each_listed Ht; cbn [tool_name]; unfold outbound, list_params;
      cbn [String.eqb Ascii.eqb Bool.eqb];
      repeat match goal with
             | |- context [o !! ?k] =>
                 rewrite (Hagree k) by (apply list_elem_of_In; simpl; tauto)
             end;
      reflexivity. }
  apply listed_is_registered in Ht. by rewrite !callTool_run, E.
Qed.

Lemma undeclared_arguments_are_ignored_witness :
  run (callTool "get_server"
         (Some {[ "serverId" := JNum (int 5); "force" := JBool true ]}))
      remote_ok =
  run (callTool "get_server" (Some {[ "serverId" := JNum (int 5) ]})) remote_ok.
Proof.
  apply (undeclared_arguments_are_ignored remote_ok
           (mkTool "get_server"
              "Get detailed information about a specific server"
              (mkSchema "object" [serverId_property] (Some ["serverId"])))
           {[ "serverId" := JNum (int 5); "force" := JBool true ]}
           {[ "serverId" := JNum (int 5) ]}).
  - apply list_elem_of_In. simpl. right. left. reflexivity.
  - intros k Hk. apply list_elem_of_In in Hk. simpl in Hk.
    destruct Hk as [<- | []]. reflexivity.
Defined.

(** ** Outcomes *)



(** X6. When the call gets no answer, the axios error is rethrown as it
    is: no code, no prefix, no second attempt. *)
Theorem transport_error_is_forwarded (remote : remote_api) (name : string)
    (args : arguments) (c : OutboundCall) (reason : string) :
  c ∈ (run (callTool name args) remote).1 ->
  remote c = NoReply reason ->
  run (callTool name args) remote = ([c], Throw (AxiosError reason None)).
Proof.
  intros Hc Hreply.
  destruct (calls_made remote name args c Hc) as (o & -> & Hin & Ho).
  by rewrite (callTool_run remote name o Hin), Ho, Hreply.
Qed.

Lemma transport_error_is_forwarded_witness :
  run (callTool "list_servers" (Some ∅)) remote_down =
  ([mkCall GET "/servers" (Some []) None],
   Throw (AxiosError "connect ECONNREFUSED" None)).
Proof.
  apply (transport_error_is_forwarded remote_down "list_servers" (Some ∅)
           (mkCall GET "/servers" (Some []) None) "connect ECONNREFUSED").
  - vm_compute. apply list_elem_of_here.
  - reflexivity.
Defined.

(** X7. A non-2xx answer whose body is not [null] and has no truthy
    [message] (a string, a number, an array, an object without the key
    or with an empty one) is reported with axios' own message after the
    upstream prefix. *)
Theorem upstream_error_without_message (remote : remote_api) (name : string)
    (args : arguments) (c : OutboundCall) (st : Z) (d : json) :
  c ∈ (run (callTool name args) remote).1 ->
  remote c = Reply st d ->
  ~ (200 <= st < 300) ->
  d <> JNull ->
  truthy (match d with JObj kvs => obj_get "message" kvs | _ => None end)
  = false ->
  run (callTool name args) remote =
  ([c], Throw (McpError InternalError
                 ("RunCloud API Error: Request failed with status code "
                  +:+ pretty st))).
Proof.
  intros Hc Hreply Hst Hnull Hfalsy.
  destruct (calls_made remote name args c Hc) as (o & -> & Hin & Ho).
  rewrite (callTool_run remote name o Hin), Ho, Hreply, (settle_rejects _ _ Hst).
  unfold on_error. cbn [data].
  destruct d; try done; cbn [member]; unfold bind, ret, throw, to_string;
    rewrite ?Hfalsy; reflexivity.
Qed.

Lemma upstream_error_without_message_witness :
  run (callTool "get_server" (Some {[ "serverId" := JNum (int 5) ]}))
      (fun _ => Reply 502 (JStr "Bad Gateway")) =
  ([mkCall GET "/servers/5" None None],
   Throw (McpError InternalError
            ("RunCloud API Error: Request failed with status code "
             +:+ pretty 502))).
Proof.
  apply (upstream_error_without_message
           (fun _ => Reply 502 (JStr "Bad Gateway")) "get_server"
           (Some {[ "serverId" := JNum (int 5) ]})
           (mkCall GET "/servers/5" None None) 502 (JStr "Bad Gateway")).
  - vm_compute. apply list_elem_of_here.
  - reflexivity.
  - lia.
  - discriminate.
  - reflexivity.
Defined.

(** X9. A non-2xx answer whose body is [null] makes the catch block
    itself fail: the invocation ends in the [TypeError] of reading
    [message] from [null], not in the upstream error. *)
Theorem null_error_body_is_type_error (remote : remote_api) (name : string)
    (args : arguments) (c : OutboundCall) (st : Z) :
  c ∈ (run (callTool name args) remote).1 ->
  remote c = Reply st JNull ->
  ~ (200 <= st < 300) ->
  run (callTool name args) remote =
  ([c], Throw (TypeError "Cannot read properties of null (reading 'message')")).
Proof.
  intros Hc Hreply Hst.
  destruct (calls_made remote name args c Hc) as (o & -> & Hin & Ho).
  by rewrite (callTool_run remote name o Hin), Ho, Hreply,
    (settle_rejects _ _ Hst).
Qed.

Lemma null_error_body_is_type_error_witness :
  run (callTool "list_servers" (Some ∅)) (fun _ => Reply 500 JNull) =
  ([mkCall GET "/servers" (Some []) None],
   Throw (TypeError "Cannot read properties of null (reading 'message')")).
Proof.
  apply (null_error_body_is_type_error (fun _ => Reply 500 JNull)
           "list_servers" (Some ∅) (mkCall GET "/servers" (Some []) None) 500).
  - vm_compute. apply list_elem_of_here.
  - reflexivity.
  - lia.
Defined.

(** X8. A [message] that is itself an object is flattened by the
    template literal: without an own [toString] key the error reads
    [RunCloud API Error: [object Object]] whatever the other fields;
    with one, the template literal throws and the invocation ends in
    that [TypeError] instead of the upstream error. *)
Theorem structured_message_is_flattened (remote : remote_api) (name : string)
    (args : arguments) (c : OutboundCall) (st : Z)
    (kvs fields : list (string * json)) :
  c ∈ (run (callTool name args) remote).1 ->
  remote c = Reply st (JObj kvs) ->
  ~ (200 <= st < 300) ->
  obj_get "message" kvs = Some (JObj fields) ->
  run (callTool name args) remote =
  ([c], Throw (match obj_get "toString" fields with
               | None =>
                   McpError InternalError "RunCloud API Error: [object Object]"
               | Some _ => conversion_error
               end)).
Proof.
  intros Hc Hreply Hst Hmsg.
  destruct (calls_made remote name args c Hc) as (o & -> & Hin & Ho).
  rewrite (callTool_run remote name o Hin), Ho, Hreply, (settle_rejects _ _ Hst).
  unfold on_error. cbn [data member]. rewrite Hmsg.
  unfold bind, ret, throw, to_string.
  cbn [truthy js_to_string json_to_string].
  by destruct (obj_get "toString" fields).
Qed.

Lemma structured_message_is_flattened_witness :
  run (callTool "list_servers" (Some ∅))
      (fun _ => Reply 422
                  (JObj [("message",
                          JObj [("name", JArr [JStr "has been taken"])])])) =
  ([mkCall GET "/servers" (Some []) None],
   Throw (McpError InternalError "RunCloud API Error: [object Object]")).
Proof.
  apply (structured_message_is_flattened
           (fun _ => Reply 422
                       (JObj [("message",
                               JObj [("name", JArr [JStr "has been taken"])])]))
           "list_servers" (Some ∅) (mkCall GET "/servers" (Some []) None) 422
           [("message", JObj [("name", JArr [JStr "has been taken"])])]
           [("name", JArr [JStr "has been taken"])]).
  - vm_compute. apply list_elem_of_here.
  - reflexivity.
  - lia.
  - reflexivity.
Defined.

(** ** Queries and bodies *)

(** X11. A truthy [search] or [page] given to a listing tool, and a
    truthy [collation] given to [create_database], is carried by every
    call of the invocation with exactly the value supplied. *)
Theorem truthy_optional_is_forwarded (remote : remote_api) (name f : string)
    (v : json) (o : gmap string json) (c : OutboundCall) :
  (In name ["list_servers"; "list_webapps"; "list_databases";
            "list_database_users"] /\ In f ["search"; "page"]) \/
  (name = "create_database" /\ f = "collation") ->
  truthy (Some v) = true ->
  c ∈ (run (callTool name (Some (<[f := v]> o))) remote).1 ->
  call_field f c = Some (Some v).
Proof.
  intros Hcase Hv Hc.
  destruct (calls_made remote _ _ c Hc) as (o' & [= <-] & _ & Hout).
  destruct Hcase as [[Hn Hf] | [-> ->]]; [each_name Hn; each_name Hf |];
    open_outbound Hout;
    unfold list_params, call_field; cbn [query body default];
    rewrite ?lookup_insert_eq, ?Hv;
    rewrite ?lookup_insert_ne by discriminate;
    try destruct (truthy (o !! _)); reflexivity.
Qed.

Lemma truthy_optional_is_forwarded_witness :
  call_field "search"
    (mkCall GET "/servers/5/databases"
       (Some [("search", Some (JStr "shop"))]) None) =
  Some (Some (JStr "shop")).
Proof.
  apply (truthy_optional_is_forwarded remote_ok "list_databases" "search"
           (JStr "shop") {[ "serverId" := JNum (int 5) ]}).
  - left. simpl. tauto.
  - reflexivity.
  - vm_compute. apply list_elem_of_here.
Defined.

(** X16. The query of a call holds nothing but [search] and [page], in
    that order, each at most once and never with a falsy value. *)
Theorem query_holds_truthy_search_and_page (remote : remote_api)
    (name : string) (args : arguments) (c : OutboundCall) (q : jsobj) :
  c ∈ (run (callTool name args) remote).1 ->
  query c = Some q ->
  In (map fst q) [[]; ["search"]; ["page"]; ["search"; "page"]] /\
  Forall (fun kv => truthy kv.2 = true) q.
Proof.
  intros Hc Hq.
  destruct (calls_made remote name args c Hc) as (o & -> & Hin & Ho).
  each_tool Hin; open_outbound Ho; cbn [query] in Hq; try discriminate;
    injection Hq as <-; unfold list_params;
    destruct (truthy (o !! "search")) eqn:Hs;
    destruct (truthy (o !! "page")) eqn:Hp;
    (split; [simpl; tauto | repeat constructor; assumption]).
Qed.

Lemma query_holds_truthy_search_and_page_witness :
  In (map fst [("page", Some (JNum (int 2)))] : list string)
     [[]; ["search"]; ["page"]; ["search"; "page"]] /\
  Forall (fun kv : string * jsval => truthy kv.2 = true)
         [("page", Some (JNum (int 2)))].
Proof.
  apply (query_holds_truthy_search_and_page remote_ok "list_servers"
           (Some {[ "page" := JNum (int 2); "search" := JStr "" ]})
           (mkCall GET "/servers" (Some [("page", Some (JNum (int 2)))]) None)).
  - vm_compute. apply list_elem_of_here.
  - reflexivity.
Defined.

(** X17. The keys of a request body are fixed by the tool, only
    [collation] comes and goes; and every value in the body is a value
    the caller supplied in the argument object: nothing is defaulted or
    made up, and a field the caller left out is sent as [undefined]. *)
Theorem body_keys_are_fixed (remote : remote_api) (name : string)
    (args : arguments) (c : OutboundCall) (b : jsobj) :
  c ∈ (run (callTool name args) remote).1 ->
  body c = Some b ->
  In (name, map fst b)
     [ ("create_webapp",
        ["name"; "domainName"; "user"; "phpVersion"; "stack"; "stackMode"]);
       ("create_database", ["name"]);
       ("create_database", ["name"; "collation"]);
       ("create_database_user", ["username"; "password"]);
       ("control_service", ["action"; "realName"]) ] /\
  Forall (fun kv => exists (o : gmap string json) field,
                      args = Some o /\ kv.2 = o !! field) b.
Proof.
  intros Hc Hb.
  destruct (calls_made remote name args c Hc) as (o & -> & Hin & Ho).
  each_tool Hin; open_outbound Ho; cbn [body] in Hb; try discriminate;
    injection Hb as <-; try destruct (truthy (o !! "collation"));
    (split; [simpl; tauto |]);
    repeat constructor; eexists o, _; (split; [reflexivity |]);
    cbn [snd]; reflexivity.
Qed.

Lemma body_keys_are_fixed_witness :
  In ("create_database_user",
      map fst [("username", Some (JStr "app")); ("password", None : jsval)])
     [ ("create_webapp",
        ["name"; "domainName"; "user"; "phpVersion"; "stack"; "stackMode"]);
       ("create_database", ["name"]);
       ("create_database", ["name"; "collation"]);
       ("create_database_user", ["username"; "password"]);
       ("control_service", ["action"; "realName"]) ] /\
  Forall (fun kv : string * jsval =>
            exists (o : gmap string json) field,
              Some ({[ "serverId" := JNum (int 5); "username" := JStr "app" ]}
                      : gmap string json) = Some o /\ kv.2 = o !! field)
         [("username", Some (JStr "app")); ("password", None)].
Proof.
  apply (body_keys_are_fixed remote_ok "create_database_user"
           (Some {[ "serverId" := JNum (int 5); "username" := JStr "app" ]})
           (mkCall POST "/servers/5/databaseusers" None
              (Some [("username", Some (JStr "app")); ("password", None)]))).
  - vm_compute. apply list_elem_of_here.
  - reflexivity.
Defined.

(** ** Start-up: the base URL *)


(** ** Url strings and identifiers *)




(** The identifiers each tool requires, and so embeds in its url. *)
Lemma embedded_identifiers_listed :
  map (fun t => (tool_name t, embedded_identifiers t)) listTools =
  [ ("list_servers", []);
    ("get_server", ["serverId"]);
    ("get_server_stats", ["serverId"]);
    ("list_webapps", ["serverId"]);
    ("get_webapp", ["serverId"; "webappId"]);
    ("create_webapp", ["serverId"]);
    ("list_databases", ["serverId"]);
    ("create_database", ["serverId"]);
    ("list_database_users", ["serverId"]);
    ("create_database_user", ["serverId"]);
    ("list_services", ["serverId"]);
    ("control_service", ["serverId"]);
    ("deploy_git", ["serverId"; "webappId"; "gitId"]) ].
Proof. vm_compute. reflexivity. Qed.



(** X14. For every tool that requires [serverId], a string given in its
    place is interpolated as it is: with the other required identifiers
    numbers, the url string handed to axios has one more segment for
    each separator in the string than it has with a number as
    [serverId]. *)
Theorem string_server_id_adds_segments (remote : remote_api) (t : Tool)
    (o : gmap string json) (s : string) (x : number) :
  t ∈ listTools ->
  "serverId" ∈ required_fields t ->
  (forall i, i ∈ embedded_identifiers t -> i <> "serverId" ->
             exists y, o !! i = Some (JNum y)) ->
  map segment_count
      (run (callTool (tool_name t) (Some (<[ "serverId" := JStr s ]> o)))
           remote).1 =
  map (fun c => (segment_count c + count_char "/" s)%nat)
      (run (callTool (tool_name t) (Some (<[ "serverId" := JNum x ]> o)))
           remote).1.
Proof.
  intros Ht Hreq Hnum.
  rewrite !calls_of_run by (by apply listed_is_registered).
  each_listed Ht; each_field Hreq;
    try (destruct (Hnum "webappId") as [w Hw];
         [vm_compute; apply list_elem_of_In; simpl; tauto | discriminate |]);
    try (destruct (Hnum "gitId") as [g Hg];
         [vm_compute; apply list_elem_of_In; simpl; tauto | discriminate |]);
    unfold outbound, with_text, segment_count;
    cbn [tool_name String.eqb Ascii.eqb Bool.eqb];
    rewrite ?lookup_insert_eq;
    rewrite ?lookup_insert_ne by discriminate;
    rewrite ?Hw, ?Hg;
    cbn [js_to_string json_to_string map path];
    rewrite !path_segments_length, ?count_char_app, ?count_slash_number;
    simpl; f_equal; lia.
Qed.

Lemma string_server_id_adds_segments_witness :
  map segment_count
      (run (callTool "list_webapps"
              (Some (<[ "serverId" := JStr "5/databases/7" ]> ∅))) remote_ok).1 =
  map (fun c => (segment_count c + count_char "/" "5/databases/7")%nat)
      (run (callTool "list_webapps"
              (Some (<[ "serverId" := JNum (int 5) ]> ∅))) remote_ok).1.
Proof.
  apply (string_server_id_adds_segments remote_ok
           (mkTool "list_webapps" "List all web applications on a server"
              (mkSchema "object"
                 [ serverId_property;
                   mkProperty "search" "string" None "Search web apps by name";
                   page_property ]
                 (Some ["serverId"])))).
  - apply list_elem_of_In. simpl. do 3 right. left. reflexivity.
  - vm_compute. apply list_elem_of_here.
  - intros i Hi Hne. vm_compute in Hi. apply list_elem_of_In in Hi.
    simpl in Hi. destruct Hi as [<- | []]. done.
Defined.
